(** * opsdroid/matchers.py: the skill decorators

    A shallow embedding of the decorator factories of [opsdroid.matchers]
    and of the little of Python they run on: values, function objects that
    carry attributes, the logger, and exceptions. *)

From Stdlib Require Import PrimFloat ZArith.
From stdpp Require Import gmap strings list fin_maps.

Open Scope string_scope.
Open Scope list_scope.
Set Warnings "-register-all".

(** ** Python values *)

(** Function objects live in a store and are named by their address: two
    references are the same object exactly when the addresses are equal. *)
Definition loc := positive.

(** The values the decorators are handed and the descriptors they build.
    A [dict] literal keeps its keys in the order they were written. *)
Inductive pyval :=
| VNone
| VBool (b : bool)
| VInt (z : Z)
| VFloat (x : float)
| VStr (s : string)
| VList (items : list pyval)
| VDict (entries : list (string * pyval))
| VFunc (l : loc).

(** [bool(v)]: None, False, zero of either numeric type (also -0.0), and the
    empty string, list and dict are falsy; NaN and function objects are not. *)
Definition truthy (v : pyval) : bool :=
  match v with
  | VNone => false
  | VBool b => b
  | VInt z => negb (z =? 0)%Z
  | VFloat x => negb (PrimFloat.eqb x 0%float)
  | VStr s => negb (String.eqb s "")
  | VList items => match items with [] => false | _ => true end
  | VDict entries => match entries with [] => false | _ => true end
  | VFunc _ => true
  end.

(** [a or b] gives back one of its operands, not a boolean. *)
Definition py_or (a b : pyval) : pyval := if truthy a then a else b.

(** [callable(v)] *)
Definition callable (v : pyval) : bool :=
  match v with VFunc _ => true | _ => false end.

(** [d[key]] on a dict value, [None] when [v] is no dict or lacks the key. *)
Fixpoint assoc (key : string) (entries : list (string * pyval)) : option pyval :=
  match entries with
  | [] => None
  | (k, v) :: rest => if String.eqb k key then Some v else assoc key rest
  end.

Definition dict_get (v : pyval) (key : string) : option pyval :=
  match v with VDict entries => assoc key entries | _ => None end.

Definition dict_keys (v : pyval) : list string :=
  match v with VDict entries => entries.*1 | _ => [] end.

(** ** The store, the log and the monad of effects *)

Inductive loglevel := WARNING.

(** [st_heap] maps the address of a function object to its attribute
    dictionary; a callable whose address is unmapped is one that takes no
    attributes (a builtin). [st_log] is what [_LOGGER] has emitted, oldest
    record first. *)
Record state := State {
  st_heap : gmap loc (gmap string pyval);
  st_log : list (loglevel * string)
}.

Inductive pyexc := AttributeError | TypeError.

(** A call returns a value or raises; the store is kept in both cases. *)
Inductive outcome (A : Type) :=
| Ok (a : A) (s : state)
| Raise (e : pyexc) (s : state).
Arguments Ok {A} a s.
Arguments Raise {A} e s.

Definition M (A : Type) : Type := state → outcome A.

#[global] Instance M_ret : MRet M := λ A a s, Ok a s.
#[global] Instance M_bind : MBind M := λ A B k m s,
  match m s with
  | Ok a s' => k a s'
  | Raise e s' => Raise e s'
  end.

Definition raise {A} (e : pyexc) : M A := λ s, Raise e s.

(** [hasattr(obj, name)] *)
Definition hasattr (obj : pyval) (name : string) : M bool := λ s,
  match obj with
  | VFunc l =>
      match st_heap s !! l with
      | Some attrs =>
          Ok (match attrs !! name with Some _ => true | None => false end) s
      | None => Ok false s
      end
  | _ => Ok false s
  end.

(** [obj.name] *)
Definition getattr (obj : pyval) (name : string) : M pyval := λ s,
  match obj with
  | VFunc l =>
      match st_heap s !! l with
      | Some attrs =>
          match attrs !! name with
          | Some v => Ok v s
          | None => Raise AttributeError s
          end
      | None => Raise AttributeError s
      end
  | _ => Raise AttributeError s
  end.

(** [obj.name = v] *)
Definition setattr (obj : pyval) (name : string) (v : pyval) : M unit := λ s,
  match obj with
  | VFunc l =>
      match st_heap s !! l with
      | Some attrs =>
          Ok () (State (<[l := <[name := v]> attrs]> (st_heap s)) (st_log s))
      | None => Raise AttributeError s
      end
  | _ => Raise AttributeError s
  end.

(** [func.matchers.append(d)]: the list is changed in place, which for a
    list reached through its owner is a write to the owner's attribute.
    Each function object is taken to own its list: one list object reached
    from two functions is not represented, and neither is a value other
    than a list that brings an [append] of its own. *)
Definition matchers_append (func d : pyval) : M unit :=
  m ← getattr func "matchers";
  match m with
  | VList items => setattr func "matchers" (VList (items ++ [d]))
  | _ => raise AttributeError
  end.

(** [_LOGGER.warning(msg)] *)
Definition logger_warning (msg : string) : M unit := λ s,
  Ok () (State (st_heap s) (st_log s ++ [(WARNING, msg)])).

(** Modelled from the spec: [opsdroid.helper.add_skill_attributes], imported
    by the module and not part of it. It guarantees the handler carries a
    matcher-list attribute, created empty when absent and left untouched when
    present, and returns the same handler. *)
Definition add_skill_attributes (func : pyval) : M pyval :=
  has ← hasattr func "matchers";
  _ ← (if has : bool then mret () else setattr func "matchers" (VList []));
  mret func.

(** A decorator takes the handler and returns it. *)
Definition decorator := pyval → M pyval.

(** ** What is observed of a handler *)

(** The matcher list of the function object at [l], empty as long as the
    attribute has not been created. *)
Definition matchers_of (s : state) (l : loc) : list pyval :=
  match st_heap s !! l with
  | Some attrs =>
      match attrs !! "matchers" with
      | Some (VList items) => items
      | _ => []
      end
  | None => []
  end.

(** A handler is a function object that takes attributes and whose
    [matchers] attribute, once there, is a list. *)
Definition is_handler (s : state) (l : loc) : bool :=
  match st_heap s !! l with
  | Some attrs =>
      match attrs !! "matchers" with
      | None | Some (VList _) => true
      | Some _ => false
      end
  | None => false
  end.

(** The store after [d] went to the end of the matcher list of [l], and
    nothing else happened. *)
Definition appended (s : state) (l : loc) (d : pyval) : state :=
  State
    (<[l := <["matchers" := VList (matchers_of s l ++ [d])]>
              (default ∅ (st_heap s !! l))]> (st_heap s))
    (st_log s).

(** The store a call ends in, whether it returned or raised. *)
Definition outcome_state {A} (r : outcome A) : state :=
  match r with Ok _ s | Raise _ s => s end.

(** The values that have no [append]: all but lists, which have one, and
    function objects, which may have been given one. *)
Definition lacks_append (v : pyval) : bool :=
  match v with VList _ | VFunc _ => false | _ => true end.

(** A handler [def f] that already carries two descriptors. *)
Definition decorated_state : state :=
  State
    (<[1%positive :=
         <["matchers" := VList [VDict [("always", VBool true)];
                                VDict [("webhook", VStr "deploy")]]]> ∅]> ∅)
    [].

(** A function object whose [matchers] attribute was set to [None] by
    hand. *)
Definition broken_state : state :=
  State (<[1%positive := <["matchers" := VNone]> ∅]> ∅) [].

(** Two undecorated handlers [def f] and [def g], nothing logged. *)
Definition fresh_state : state :=
  State (<[1%positive := ∅]> (<[2%positive := ∅]> ∅)) [].

(** ** The decorator factories *)

Section matchers.

(** [opsdroid.const.REGEX_PARSE_SCORE_FACTOR], defined outside the module. *)
Variable REGEX_PARSE_SCORE_FACTOR : pyval.

(** The translation function [_] that gettext installs in the builtins. *)
Variable gettext : string → string.

Definition match_event (event_type : pyval) : decorator :=
  λ func,
    func ← add_skill_attributes func;
    matchers_append func (VDict [("event_type", VDict [("type", event_type)])]);;
    mret func.

(** A keyword argument the caller leaves out is [None] here and takes the
    default of the signature. *)
Definition match_regex (regex : pyval)
    (case_sensitive matching_condition score_factor : option pyval) : decorator :=
  let case_sensitive := default (VBool true) case_sensitive in
  let matching_condition := default (VStr "match") matching_condition in
  let score_factor := default VNone score_factor in
  λ func,
    func ← add_skill_attributes func;
    matchers_append func
      (VDict [("regex",
         VDict [("expression", regex);
                ("case_sensitive", case_sensitive);
                ("matching_condition", matching_condition);
                ("score_factor", py_or score_factor REGEX_PARSE_SCORE_FACTOR)])]);;
    mret func.

Definition match_parse (format_str : pyval)
    (case_sensitive matching_condition score_factor : option pyval) : decorator :=
  let case_sensitive := default (VBool true) case_sensitive in
  let matching_condition := default (VStr "match") matching_condition in
  let score_factor := default VNone score_factor in
  λ func,
    func ← add_skill_attributes func;
    matchers_append func
      (VDict [("parse_format",
         VDict [("expression", format_str);
                ("case_sensitive", case_sensitive);
                ("matching_condition", matching_condition);
                ("score_factor", py_or score_factor REGEX_PARSE_SCORE_FACTOR)])]);;
    mret func.

Definition match_dialogflow_action (action : pyval) : decorator :=
  λ func,
    func ← add_skill_attributes func;
    matchers_append func (VDict [("dialogflow_action", action)]);;
    mret func.

Definition match_dialogflow_intent (intent : pyval) : decorator :=
  λ func,
    func ← add_skill_attributes func;
    matchers_append func (VDict [("dialogflow_intent", intent)]);;
    mret func.

Definition match_luisai_intent (intent : pyval) : decorator :=
  λ func,
    func ← add_skill_attributes func;
    matchers_append func (VDict [("luisai_intent", intent)]);;
    mret func.

Definition match_rasanlu (intent : pyval) : decorator :=
  λ func,
    func ← add_skill_attributes func;
    matchers_append func (VDict [("rasanlu_intent", intent)]);;
    mret func.

Definition recastai_warning : string :=
  ("Recast.AI is now called SAP Conversational AI, " ++
   "this matcher  will stop working in the future. " ++
   "Use match_sapcai instead.")%string.

(** The one factory with an effect of its own: it logs before it returns
    the decorator. *)
Definition match_recastai (intent : pyval) : M decorator :=
  let matcher : decorator := λ func,
    func ← add_skill_attributes func;
    matchers_append func (VDict [("sapcai_intent", intent)]);;
    mret func in
  logger_warning (gettext recastai_warning);;
  mret matcher.

Definition match_sapcai (intent : pyval) : decorator :=
  λ func,
    func ← add_skill_attributes func;
    matchers_append func (VDict [("sapcai_intent", intent)]);;
    mret func.

Definition match_watson (intent : pyval) : decorator :=
  λ func,
    func ← add_skill_attributes func;
    matchers_append func (VDict [("watson_intent", intent)]);;
    mret func.

Definition match_witai (intent : pyval) : decorator :=
  λ func,
    func ← add_skill_attributes func;
    matchers_append func (VDict [("witai_intent", intent)]);;
    mret func.

Definition match_crontab (crontab : pyval) (timezone : option pyval) : decorator :=
  let timezone := default VNone timezone in
  λ func,
    func ← add_skill_attributes func;
    matchers_append func (VDict [("crontab", crontab); ("timezone", timezone)]);;
    mret func.

Definition match_webhook (webhook : pyval) : decorator :=
  λ func,
    func ← add_skill_attributes func;
    matchers_append func (VDict [("webhook", webhook)]);;
    mret func.

(** [match_always] returns the decorated handler when it is handed a
    callable, and the decorator otherwise. *)
Inductive always_result :=
| Decorated (func : pyval)
| Matcher (matcher : decorator).

Definition match_always (func : option pyval) : M always_result :=
  let func := default VNone func in
  let matcher : decorator := λ func,
    func ← add_skill_attributes func;
    matchers_append func (VDict [("always", VBool true)]);;
    mret func in
  if callable func
  then func ← matcher func; mret (Decorated func)
  else mret (Matcher matcher).

(** *** Uses of the decorators *)

(** One call of a factory of the module, with its arguments. *)
Inductive call :=
| CallEvent (event_type : pyval)
| CallRegex (regex : pyval)
    (case_sensitive matching_condition score_factor : option pyval)
| CallParse (format_str : pyval)
    (case_sensitive matching_condition score_factor : option pyval)
| CallDialogflowAction (action : pyval)
| CallDialogflowIntent (intent : pyval)
| CallLuisaiIntent (intent : pyval)
| CallRasanlu (intent : pyval)
| CallRecastai (intent : pyval)
| CallSapcai (intent : pyval)
| CallWatson (intent : pyval)
| CallWitai (intent : pyval)
| CallCrontab (crontab : pyval) (timezone : option pyval)
| CallWebhook (webhook : pyval)
| CallAlways.

(** Evaluating the expression after [@]. [CallAlways] is [match_always()];
    it never takes the [Decorated] branch, [None] not being callable. *)
Definition factory (c : call) : M decorator :=
  match c with
  | CallEvent event_type => mret (match_event event_type)
  | CallRegex regex cs mc sf => mret (match_regex regex cs mc sf)
  | CallParse format_str cs mc sf => mret (match_parse format_str cs mc sf)
  | CallDialogflowAction action => mret (match_dialogflow_action action)
  | CallDialogflowIntent intent => mret (match_dialogflow_intent intent)
  | CallLuisaiIntent intent => mret (match_luisai_intent intent)
  | CallRasanlu intent => mret (match_rasanlu intent)
  | CallRecastai intent => match_recastai intent
  | CallSapcai intent => mret (match_sapcai intent)
  | CallWatson intent => mret (match_watson intent)
  | CallWitai intent => mret (match_witai intent)
  | CallCrontab crontab timezone => mret (match_crontab crontab timezone)
  | CallWebhook webhook => mret (match_webhook webhook)
  | CallAlways =>
      r ← match_always None;
      match r with
      | Matcher matcher => mret matcher
      | Decorated _ => raise TypeError
      end
  end.

(** [@c] over [def func]: the factory is called, then its decorator. *)
Definition decorate (c : call) (func : pyval) : M pyval :=
  matcher ← factory c;
  matcher func.


(** The descriptor each call stands for, read off its arguments alone. *)
Definition descriptor_of (c : call) : pyval :=
  match c with
  | CallEvent event_type => VDict [("event_type", VDict [("type", event_type)])]
  | CallRegex regex cs mc sf =>
      VDict [("regex",
        VDict [("expression", regex);
               ("case_sensitive", default (VBool true) cs);
               ("matching_condition", default (VStr "match") mc);
               ("score_factor",
                 if truthy (default VNone sf) then default VNone sf
                 else REGEX_PARSE_SCORE_FACTOR)])]
  | CallParse format_str cs mc sf =>
      VDict [("parse_format",
        VDict [("expression", format_str);
               ("case_sensitive", default (VBool true) cs);
               ("matching_condition", default (VStr "match") mc);
               ("score_factor",
                 if truthy (default VNone sf) then default VNone sf
                 else REGEX_PARSE_SCORE_FACTOR)])]
  | CallDialogflowAction action => VDict [("dialogflow_action", action)]
  | CallDialogflowIntent intent => VDict [("dialogflow_intent", intent)]
  | CallLuisaiIntent intent => VDict [("luisai_intent", intent)]
  | CallRasanlu intent => VDict [("rasanlu_intent", intent)]
  | CallRecastai intent => VDict [("sapcai_intent", intent)]
  | CallSapcai intent => VDict [("sapcai_intent", intent)]
  | CallWatson intent => VDict [("watson_intent", intent)]
  | CallWitai intent => VDict [("witai_intent", intent)]
  | CallCrontab crontab timezone =>
      VDict [("crontab", crontab); ("timezone", default VNone timezone)]
  | CallWebhook webhook => VDict [("webhook", webhook)]
  | CallAlways => VDict [("always", VBool true)]
  end.

(** The descriptor shape [match_regex] and [match_parse] share, under the
    kind tag [kind]. *)
Definition expression_descriptor (kind : string)
    (expression case_sensitive matching_condition score_factor : pyval) : pyval :=
  VDict [(kind,
    VDict [("expression", expression);
           ("case_sensitive", case_sensitive);
           ("matching_condition", matching_condition);
           ("score_factor", score_factor)])].

(** What the factory call itself logs. *)
Definition factory_log (c : call) : list (loglevel * string) :=
  match c with
  | CallRecastai _ => [(WARNING, gettext recastai_warning)]
  | _ => []
  end.

Definition after_factory (c : call) (s : state) : state :=
  State (st_heap s) (st_log s ++ factory_log c).


(** Two calls of the same factory. *)
Definition same_factory (c1 c2 : call) : bool :=
  match c1, c2 with
  | CallEvent _, CallEvent _
  | CallRegex _ _ _ _, CallRegex _ _ _ _
  | CallParse _ _ _ _, CallParse _ _ _ _
  | CallDialogflowAction _, CallDialogflowAction _
  | CallDialogflowIntent _, CallDialogflowIntent _
  | CallLuisaiIntent _, CallLuisaiIntent _
  | CallRasanlu _, CallRasanlu _
  | CallRecastai _, CallRecastai _
  | CallSapcai _, CallSapcai _
  | CallWatson _, CallWatson _
  | CallWitai _, CallWitai _
  | CallCrontab _ _, CallCrontab _ _
  | CallWebhook _, CallWebhook _
  | CallAlways, CallAlways => true
  | _, _ => false
  end.

(** [match_recastai] and [match_sapcai], the two names of one provider. *)
Definition sapcai_alias (c : call) : bool :=
  match c with CallRecastai _ | CallSapcai _ => true | _ => false end.


Definition is_crontab (c : call) : bool :=
  match c with CallCrontab _ _ => true | _ => false end.

(** ** Properties *)

(** *** The store *)

Lemma matchers_of_appended s l d :
  matchers_of (appended s l d) l = matchers_of s l ++ [d].
Proof.
  unfold appended, matchers_of at 1; simpl.
  by rewrite !lookup_insert_eq.
Qed.



(** The body every inner [matcher] shares. *)
Lemma matcher_body s l d :
  is_handler s l = true →
  (func ← add_skill_attributes (VFunc l);
   matchers_append func d;; mret func) s
  = Ok (VFunc l) (appended s l d).
Proof.
  unfold is_handler, appended, matchers_of. destruct s as [h lg]; simpl.
  intros H.
  unfold mbind, M_bind, add_skill_attributes, matchers_append, hasattr,
    getattr, setattr, mret, M_ret, mbind, M_bind; simpl.
  destruct (h !! l) as [attrs|] eqn:Hl; [|done]; simpl.
  destruct (attrs !! "matchers") as [v|] eqn:Hm; simpl.
  - destruct v; try done.
    rewrite Hl, Hm; simpl. by rewrite Hl.
  - rewrite Hl; simpl. rewrite !lookup_insert_eq; simpl.
    rewrite !lookup_insert_eq; simpl.
    by rewrite !insert_insert_eq.
Qed.

(** An inner [matcher] never logs, whatever it is applied to and whether
    or not it raises. *)
Lemma matcher_body_log func d s :
  st_log (outcome_state
    ((func ← add_skill_attributes func;
      matchers_append func d;; mret func) s)) = st_log s.
Proof.
  unfold mbind, M_bind, add_skill_attributes, matchers_append, hasattr,
    getattr, setattr, raise, mret, M_ret, mbind, M_bind.
  destruct func as [| | | | | | |l]; simpl; try done.
  destruct (st_heap s !! l) as [attrs|] eqn:Hl; simpl;
    [|by rewrite Hl].
  destruct (attrs !! "matchers") as [v|] eqn:Hm; simpl.
  - rewrite ?Hl, ?Hm; simpl. destruct v; simpl; try done. by rewrite Hl.
  - rewrite ?Hl; simpl. rewrite !lookup_insert_eq; simpl.
    by rewrite !lookup_insert_eq.
Qed.

(** *** Every factory *)

Lemma factory_spec c s :
  ∃ matcher, factory c s = Ok matcher (after_factory c s) ∧
    ∀ s' l, is_handler s' l = true →
      matcher (VFunc l) s' = Ok (VFunc l) (appended s' l (descriptor_of c)).
Proof.
  assert (Hs : ∀ c', factory_log c' = [] → after_factory c' s = s).
  { intros c' E. unfold after_factory. rewrite E, app_nil_r. by destruct s. }
  destruct c; eexists;
    (split;
     [ first [ reflexivity
             | unfold factory, match_always, mbind, M_bind, mret, M_ret;
               simpl; by rewrite Hs ]
     | intros s' l H; exact (matcher_body s' l _ H) ]).
Qed.

Lemma decorate_spec c s l :
  is_handler s l = true →
  decorate c (VFunc l) s
  = Ok (VFunc l) (appended (after_factory c s) l (descriptor_of c)).
Proof.
  intros H. destruct (factory_spec c s) as (matcher & Hf & Hm).
  unfold decorate, mbind, M_bind. rewrite Hf. by apply Hm.
Qed.


(** *** The claims *)

(** C1. For every factory of the module and every handler, the decorator
    hands back the very function object it was given, and the handler's
    matcher list afterwards is the list as it was followed by exactly one
    descriptor. The bare form [@match_always] does the same. *)
Theorem decorator_returns_handler_appends_one c s l :
  is_handler s l = true →
  (∃ matcher s1 s2,
     factory c s = Ok matcher s1 ∧
     matchers_of s1 l = matchers_of s l ∧
     matcher (VFunc l) s1 = Ok (VFunc l) s2 ∧
     matchers_of s2 l = matchers_of s l ++ [descriptor_of c] ∧
     length (matchers_of s2 l) = S (length (matchers_of s l))) ∧
  (∃ s2,
     match_always (Some (VFunc l)) s = Ok (Decorated (VFunc l)) s2 ∧
     matchers_of s2 l = matchers_of s l ++ [VDict [("always", VBool true)]]).
Proof.
  intros H. split.
  - destruct (factory_spec c s) as (matcher & Hf & Hm).
    exists matcher, (after_factory c s),
      (appended (after_factory c s) l (descriptor_of c)).
    split; [exact Hf|]. split; [reflexivity|].
    split; [exact (Hm (after_factory c s) l H)|].
    rewrite matchers_of_appended. split; [reflexivity|].
    rewrite length_app; simpl. unfold matchers_of, after_factory; simpl. lia.
  - exists (appended s l (VDict [("always", VBool true)])). split.
    + unfold match_always; simpl. unfold mbind at 1, M_bind at 1.
      by rewrite (matcher_body s l _ H).
    + apply matchers_of_appended.
Qed.


(** C3. With the expression alone, [match_regex] and [match_parse] attach
    case_sensitive True, matching_condition "match" and the module's default
    score factor; a truthy [score_factor] is stored as given (2.5 is); a
    falsy one, 0 included, gives what leaving it out gives. *)
Theorem regex_parse_defaults expression cs mc s l :
  is_handler s l = true →
  (match_regex expression None None None (VFunc l) s
     = Ok (VFunc l) (appended s l
         (expression_descriptor "regex" expression (VBool true) (VStr "match")
            REGEX_PARSE_SCORE_FACTOR)) ∧
   match_parse expression None None None (VFunc l) s
     = Ok (VFunc l) (appended s l
         (expression_descriptor "parse_format" expression (VBool true)
            (VStr "match") REGEX_PARSE_SCORE_FACTOR))) ∧
  (∀ sf, truthy sf = true →
     match_regex expression cs mc (Some sf) (VFunc l) s
       = Ok (VFunc l) (appended s l
           (expression_descriptor "regex" expression
              (default (VBool true) cs) (default (VStr "match") mc) sf)) ∧
     match_parse expression cs mc (Some sf) (VFunc l) s
       = Ok (VFunc l) (appended s l
           (expression_descriptor "parse_format" expression
              (default (VBool true) cs) (default (VStr "match") mc) sf))) ∧
  truthy (VFloat 2.5) = true ∧
  (∀ sf, truthy sf = false →
     match_regex expression cs mc (Some sf) (VFunc l) s
       = Ok (VFunc l) (appended s l
           (expression_descriptor "regex" expression
              (default (VBool true) cs) (default (VStr "match") mc)
              REGEX_PARSE_SCORE_FACTOR)) ∧
     match_parse expression cs mc (Some sf) (VFunc l) s
       = Ok (VFunc l) (appended s l
           (expression_descriptor "parse_format" expression
              (default (VBool true) cs) (default (VStr "match") mc)
              REGEX_PARSE_SCORE_FACTOR)) ∧
     match_regex expression cs mc (Some sf) (VFunc l) s
       = match_regex expression cs mc None (VFunc l) s ∧
     match_parse expression cs mc (Some sf) (VFunc l) s
       = match_parse expression cs mc None (VFunc l) s) ∧
  truthy (VInt 0) = false ∧ truthy (VFloat 0) = false ∧ truthy VNone = false.
Proof.
  intros H.
  assert (Er : ∀ sf, truthy sf = false →
            match_regex expression cs mc (Some sf)
            = match_regex expression cs mc None).
  { intros sf Hsf. unfold match_regex, py_or; simpl. by rewrite Hsf. }
  assert (Ep : ∀ sf, truthy sf = false →
            match_parse expression cs mc (Some sf)
            = match_parse expression cs mc None).
  { intros sf Hsf. unfold match_parse, py_or; simpl. by rewrite Hsf. }
  split; [|split; [|split; [|split]]].
  - split; exact (matcher_body s l _ H).
  - intros sf Hsf.
    split; (etrans; [exact (matcher_body s l _ H)|]);
      unfold expression_descriptor, py_or; simpl; by rewrite Hsf.
  - reflexivity.
  - intros sf Hsf. rewrite (Er sf Hsf), (Ep sf Hsf).
    split; [|split; [|done]]; exact (matcher_body s l _ H).
  - done.
Qed.

(** C4. [match_always] handed the handler itself and [match_always()]
    applied to the handler end in the same store with the same handler
    returned, its matcher list one descriptor [{"always": True}] longer. *)
Theorem match_always_bare_and_called_agree s l :
  is_handler s l = true →
  ∃ matcher s',
    match_always None s = Ok (Matcher matcher) s ∧
    matcher (VFunc l) s = Ok (VFunc l) s' ∧
    match_always (Some (VFunc l)) s = Ok (Decorated (VFunc l)) s' ∧
    matchers_of s' l = matchers_of s l ++ [VDict [("always", VBool true)]] ∧
    ∀ func t, callable func = true →
      match_always (Some func) t
      = (func ← matcher func; mret (Decorated func)) t.
Proof.
  intros H. eexists. exists (appended s l (VDict [("always", VBool true)])).
  split; [reflexivity|]. split; [exact (matcher_body s l _ H)|]. split.
  - unfold match_always; simpl. unfold mbind at 1, M_bind at 1.
    by rewrite (matcher_body s l _ H).
  - split; [apply matchers_of_appended|].
    intros func t Hc. unfold match_always; simpl. by rewrite Hc.
Qed.

(** C5. The decorator [match_recastai] returns behaves on every argument
    and store as [match_sapcai]'s does, and on a handler both attach the
    descriptor [{"sapcai_intent": intent}]. *)
Theorem recastai_attaches_what_sapcai_attaches intent s l :
  is_handler s l = true →
  ∃ matcher s1,
    match_recastai intent s = Ok matcher s1 ∧
    (∀ func t, matcher func t = match_sapcai intent func t) ∧
    matcher (VFunc l) s1
      = Ok (VFunc l) (appended s1 l (VDict [("sapcai_intent", intent)])) ∧
    match_sapcai intent (VFunc l) s
      = Ok (VFunc l) (appended s l (VDict [("sapcai_intent", intent)])) ∧
    matchers_of (appended s1 l (VDict [("sapcai_intent", intent)])) l
      = matchers_of (appended s l (VDict [("sapcai_intent", intent)])) l ∧
    st_heap (appended s1 l (VDict [("sapcai_intent", intent)]))
      = st_heap (appended s l (VDict [("sapcai_intent", intent)])).
Proof.
  intros H. eexists. eexists. split; [reflexivity|].
  split; [reflexivity|].
  split; [apply matcher_body; exact H|].
  split; [exact (matcher_body s l _ H)|].
  split; reflexivity.
Qed.

(** C6, as amended. [match_recastai] logs its warning once per call of the
    factory, when the decorator is made and before any handler is seen; the
    decorator it returns logs nothing, however often it is applied, and is
    [match_sapcai]'s. So [@match_recastai(intent)] over one definition logs
    exactly one warning. *)
Theorem recastai_warns_once_per_factory_call intent s :
  ∃ matcher,
    match_recastai intent s
      = Ok matcher
          (State (st_heap s) (st_log s ++ [(WARNING, gettext recastai_warning)])) ∧
    (∀ func t, st_log (outcome_state (matcher func t)) = st_log t) ∧
    (∀ func t, matcher func t = match_sapcai intent func t) ∧
    (∀ func,
       st_log (outcome_state (decorate (CallRecastai intent) func s))
       = st_log s ++ [(WARNING, gettext recastai_warning)]).
Proof.
  eexists. split; [reflexivity|].
  split; [intros func t; apply matcher_body_log|].
  split; [reflexivity|].
  intros func. unfold decorate, factory, match_recastai.
  unfold mbind at 1, M_bind at 1. simpl.
  apply (matcher_body_log func (VDict [("sapcai_intent", intent)])).
Qed.

(** C7, as amended. [match_event(e)] attaches a descriptor whose only key
    is [event_type] and whose value there is the dict [{"type": e}]: the
    event type sits one level down, under the key [type]. *)
Theorem match_event_nests_type event_type s l :
  is_handler s l = true →
  ∃ s' d,
    match_event event_type (VFunc l) s = Ok (VFunc l) s' ∧
    matchers_of s' l = matchers_of s l ++ [d] ∧
    dict_keys d = ["event_type"] ∧
    dict_get d "event_type" = Some (VDict [("type", event_type)]) ∧
    (v ← dict_get d "event_type"; dict_get v "type") = Some event_type.
Proof.
  intros H. eexists. eexists.
  split; [exact (matcher_body s l _ H)|].
  split; [apply matchers_of_appended|]. done.
Qed.

(** C8. Without a timezone, [match_crontab(c)] attaches
    [{"crontab": c, "timezone": None}]: the cron expression, and no value
    for the timezone. [match_webhook("deploy")] attaches
    [{"webhook": "deploy"}], a dict of that one key. *)
Theorem crontab_and_webhook_descriptors crontab s l :
  is_handler s l = true →
  (∃ s' d,
     match_crontab crontab None (VFunc l) s = Ok (VFunc l) s' ∧
     matchers_of s' l = matchers_of s l ++ [d] ∧
     d = VDict [("crontab", crontab); ("timezone", VNone)] ∧
     dict_get d "crontab" = Some crontab ∧
     dict_get d "timezone" = Some VNone) ∧
  (∀ timezone, ∃ s' d,
     match_crontab crontab (Some timezone) (VFunc l) s = Ok (VFunc l) s' ∧
     matchers_of s' l = matchers_of s l ++ [d] ∧
     dict_get d "crontab" = Some crontab ∧
     dict_get d "timezone" = Some timezone) ∧
  (∃ s' d,
     match_webhook (VStr "deploy") (VFunc l) s = Ok (VFunc l) s' ∧
     matchers_of s' l = matchers_of s l ++ [d] ∧
     d = VDict [("webhook", VStr "deploy")] ∧
     dict_keys d = ["webhook"]).
Proof.
  intros H. split; [|split].
  - eexists. eexists. split; [exact (matcher_body s l _ H)|].
    split; [apply matchers_of_appended|]. done.
  - intros timezone. eexists. eexists.
    split; [exact (matcher_body s l _ H)|].
    split; [apply matchers_of_appended|]. done.
  - eexists. eexists. split; [exact (matcher_body s l _ H)|].
    split; [apply matchers_of_appended|]. done.
Qed.

(** C9. Handed anything that is not callable, [match_always] raises
    nothing, leaves the store as it is and returns the decorator it returns
    when called with no argument. *)
Theorem match_always_ignores_non_callable x s :
  callable x = false →
  match_always (Some x) s = match_always None s ∧
  ∃ matcher,
    match_always (Some x) s = Ok (Matcher matcher) s ∧
    ∀ l, is_handler s l = true →
      matcher (VFunc l) s
      = Ok (VFunc l) (appended s l (VDict [("always", VBool true)])).
Proof.
  intros Hc. unfold match_always; simpl. rewrite Hc. split; [reflexivity|].
  eexists. split; [reflexivity|].
  intros l H. exact (matcher_body s l _ H).
Qed.

(** C10. A decoration only appends to the handler's matcher list: every
    descriptor already in it stays where it is, unchanged, and the one
    descriptor added behind them is fixed by the factory's arguments alone,
    the same on any other handler in any other store, whatever that handler
    already carries. *)
Theorem decoration_is_append_only c s l :
  is_handler s l = true →
  ∃ s',
    decorate c (VFunc l) s = Ok (VFunc l) s' ∧
    matchers_of s' l = matchers_of s l ++ [descriptor_of c] ∧
    (∀ i d, matchers_of s l !! i = Some d → matchers_of s' l !! i = Some d) ∧
    (∀ t k, is_handler t k = true →
       ∃ t', decorate c (VFunc k) t = Ok (VFunc k) t' ∧
             matchers_of t' k = matchers_of t k ++ [descriptor_of c]).
Proof.
  intros H. exists (appended (after_factory c s) l (descriptor_of c)).
  split; [exact (decorate_spec c s l H)|].
  split; [exact (matchers_of_appended (after_factory c s) l _)|]. split.
  { intros i d Hi. rewrite matchers_of_appended.
    apply lookup_app_l_Some. exact Hi. }
  intros t k Hk. exists (appended (after_factory c t) k (descriptor_of c)).
  split; [exact (decorate_spec c t k Hk)|].
  exact (matchers_of_appended (after_factory c t) k _).
Qed.

(** *** Failure and composition *)

(** What each factory returns is the shared body at its descriptor, on any
    argument. *)
Lemma factory_body c s :
  ∃ matcher, factory c s = Ok matcher (after_factory c s) ∧
    ∀ func t,
      matcher func t
      = (func ← add_skill_attributes func;
         matchers_append func (descriptor_of c);; mret func) t.
Proof.
  assert (Hs : ∀ c', factory_log c' = [] → after_factory c' s = s).
  { intros c' E. unfold after_factory. rewrite E, app_nil_r. by destruct s. }
  destruct c; eexists;
    (split;
     [ first [ reflexivity
             | unfold factory, match_always, mbind, M_bind, mret, M_ret;
               simpl; by rewrite Hs ]
     | intros func t; reflexivity ]).
Qed.

Lemma matcher_body_non_list s l attrs v d :
  st_heap s !! l = Some attrs →
  attrs !! "matchers" = Some v →
  lacks_append v = true →
  (func ← add_skill_attributes (VFunc l);
   matchers_append func d;; mret func) s
  = Raise AttributeError s.
Proof.
  intros Hl Hm Hv.
  unfold mbind, M_bind, add_skill_attributes, matchers_append, hasattr,
    getattr, setattr, raise, mret, M_ret, mbind, M_bind; simpl.
  rewrite Hl; simpl. rewrite Hm; simpl. rewrite ?Hl, ?Hm; simpl.
  by destruct v.
Qed.



(** X1. A function whose [matchers] attribute holds a value without
    [append] (None, a number, a string, a dict) cannot be decorated: the
    decorator of every factory raises AttributeError, the attribute still
    holds that value, and the log has only what the factory itself logged.
    The bare [@match_always] raises as well: it does not fall back to
    returning the decorator. *)
Theorem decorating_over_a_non_list_raises c s l attrs v :
  st_heap s !! l = Some attrs →
  attrs !! "matchers" = Some v →
  lacks_append v = true →
  ∃ s' s'' attrs',
    decorate c (VFunc l) s = Raise AttributeError s' ∧
    st_heap s' !! l = Some attrs' ∧
    attrs' !! "matchers" = Some v ∧
    st_log s' = st_log s ++ factory_log c ∧
    match_always (Some (VFunc l)) s = Raise AttributeError s''.
Proof.
  intros Hl Hm Hv. exists (after_factory c s), s, attrs.
  split; [|split; [exact Hl|split; [exact Hm|split; [reflexivity|]]]].
  - destruct (factory_body c s) as (matcher & Hf & Hb).
    unfold decorate, mbind, M_bind. rewrite Hf, Hb.
    exact (matcher_body_non_list (after_factory c s) l attrs v _ Hl Hm Hv).
  - unfold match_always; simpl. unfold mbind at 1, M_bind at 1.
    by rewrite (matcher_body_non_list s l attrs v _ Hl Hm Hv).
Qed.

(** X2. Of the fourteen factories only [match_recastai] logs: decorating
    with any other leaves the log as it was, whatever the decorator is
    applied to and whether it returns or raises. *)
Theorem only_recastai_logs c func s :
  (∀ intent, c ≠ CallRecastai intent) →
  st_log (outcome_state (decorate c func s)) = st_log s.
Proof.
  intros Hc. destruct (factory_body c s) as (matcher & Hf & Hm).
  unfold decorate, mbind, M_bind. rewrite Hf, Hm.
  rewrite matcher_body_log. unfold after_factory; simpl.
  destruct c; simpl; try apply app_nil_r.
  by destruct (Hc intent).
Qed.


(** X5. The score factor [match_regex] and [match_parse] store is never a
    falsy value other than the module default itself: it is truthy or it is
    the default, so with a truthy default no descriptor carries 0 or None
    as its score factor. *)
Theorem stored_score_factor_truthy_or_default expression cs mc sf s l :
  is_handler s l = true →
  ∃ s1 s2 d1 d2 p1 p2 v,
    match_regex expression cs mc sf (VFunc l) s = Ok (VFunc l) s1 ∧
    matchers_of s1 l = matchers_of s l ++ [d1] ∧
    dict_get d1 "regex" = Some p1 ∧
    dict_get p1 "score_factor" = Some v ∧
    match_parse expression cs mc sf (VFunc l) s = Ok (VFunc l) s2 ∧
    matchers_of s2 l = matchers_of s l ++ [d2] ∧
    dict_get d2 "parse_format" = Some p2 ∧
    dict_get p2 "score_factor" = Some v ∧
    (truthy v = true ∨ v = REGEX_PARSE_SCORE_FACTOR) ∧
    (truthy REGEX_PARSE_SCORE_FACTOR = true → truthy v = true).
Proof.
  intros H. do 6 eexists. exists (py_or (default VNone sf) REGEX_PARSE_SCORE_FACTOR).
  split; [exact (matcher_body s l _ H)|].
  split; [apply matchers_of_appended|].
  split; [reflexivity|]. split; [reflexivity|].
  split; [exact (matcher_body s l _ H)|].
  split; [apply matchers_of_appended|].
  split; [reflexivity|]. split; [reflexivity|].
  unfold py_or. destruct (truthy (default VNone sf)) eqn:Ht.
  - split; [by left|done].
  - split; [by right|done].
Qed.

(** X6. The keys of the descriptor tell the factory: two decorators attach
    descriptors with the same keys exactly when they come from the same
    factory or from the pair [match_recastai], [match_sapcai]. The
    descriptor of [match_crontab] has the two keys crontab and timezone, in
    that order; the descriptor of every other factory has one key. *)
Theorem descriptor_keys_tell_the_factory c1 c2 s l :
  is_handler s l = true →
  ∃ s1 s2 d1 d2,
    decorate c1 (VFunc l) s = Ok (VFunc l) s1 ∧
    matchers_of s1 l = matchers_of s l ++ [d1] ∧
    decorate c2 (VFunc l) s = Ok (VFunc l) s2 ∧
    matchers_of s2 l = matchers_of s l ++ [d2] ∧
    (dict_keys d1 = dict_keys d2
     ↔ same_factory c1 c2 || (sapcai_alias c1 && sapcai_alias c2) = true) ∧
    (if is_crontab c1
     then dict_keys d1 = ["crontab"; "timezone"]
     else length (dict_keys d1) = 1).
Proof.
  intros H.
  exists (appended (after_factory c1 s) l (descriptor_of c1)),
         (appended (after_factory c2 s) l (descriptor_of c2)),
         (descriptor_of c1), (descriptor_of c2).
  split; [exact (decorate_spec c1 s l H)|].
  split; [exact (matchers_of_appended (after_factory c1 s) l _)|].
  split; [exact (decorate_spec c2 s l H)|].
  split; [exact (matchers_of_appended (after_factory c2 s) l _)|].
  split.
  - destruct c1, c2; simpl; split; intros E; try done; discriminate E.
  - by destruct c1.
Qed.


End matchers.

(** ** The theorems at work

    On the store [fresh_state], with 0.5 for the default score factor and
    the identity for the translation function. *)

Lemma decorator_returns_handler_appends_one_witness :
  is_handler fresh_state 1%positive = true ∧
  ∃ matcher s1 s2,
    factory (VFloat 0.5) (λ m, m) (CallWebhook (VStr "deploy")) fresh_state
      = Ok matcher s1 ∧
    matcher (VFunc 1%positive) s1 = Ok (VFunc 1%positive) s2 ∧
    matchers_of s2 1%positive = [VDict [("webhook", VStr "deploy")]].
Proof.
  split; [reflexivity|].
  destruct (decorator_returns_handler_appends_one (VFloat 0.5) (λ m, m)
              (CallWebhook (VStr "deploy")) fresh_state 1%positive eq_refl)
    as [(matcher & s1 & s2 & Hf & _ & Hm & Hl & _) _].
  exists matcher, s1, s2. split; [exact Hf|]. split; [exact Hm|exact Hl].
Defined.


Lemma regex_parse_defaults_witness :
  is_handler fresh_state 1%positive = true ∧
  match_regex (VFloat 0.5) (VStr "hi") None None (Some (VFloat 2.5))
    (VFunc 1%positive) fresh_state
  = Ok (VFunc 1%positive)
      (appended fresh_state 1%positive
         (expression_descriptor "regex" (VStr "hi") (VBool true)
            (VStr "match") (VFloat 2.5))) ∧
  match_regex (VFloat 0.5) (VStr "hi") None None (Some (VInt 0))
    (VFunc 1%positive) fresh_state
  = match_regex (VFloat 0.5) (VStr "hi") None None None
      (VFunc 1%positive) fresh_state.
Proof.
  split; [reflexivity|].
  destruct (regex_parse_defaults (VFloat 0.5) (VStr "hi") None None
              fresh_state 1%positive eq_refl)
    as (_ & Hgiven & H25 & Hfalsy & H0 & _).
  split.
  - exact (proj1 (Hgiven (VFloat 2.5) H25)).
  - exact (proj1 (proj2 (proj2 (Hfalsy (VInt 0) H0)))).
Defined.

Lemma match_always_bare_and_called_agree_witness :
  is_handler fresh_state 2%positive = true ∧
  ∃ matcher s',
    match_always None fresh_state = Ok (Matcher matcher) fresh_state ∧
    matcher (VFunc 2%positive) fresh_state = Ok (VFunc 2%positive) s' ∧
    match_always (Some (VFunc 2%positive)) fresh_state
      = Ok (Decorated (VFunc 2%positive)) s' ∧
    matchers_of s' 2%positive = [VDict [("always", VBool true)]].
Proof.
  split; [reflexivity|].
  destruct (match_always_bare_and_called_agree fresh_state 2%positive eq_refl)
    as (matcher & s' & Hf & Hm & Hb & Hl & _).
  exists matcher, s'. split; [exact Hf|]. split; [exact Hm|].
  split; [exact Hb|exact Hl].
Defined.

Lemma recastai_attaches_what_sapcai_attaches_witness :
  is_handler fresh_state 1%positive = true ∧
  ∃ matcher s1,
    match_recastai (λ m, m) (VStr "book_flight") fresh_state = Ok matcher s1 ∧
    matcher (VFunc 1%positive) s1
      = Ok (VFunc 1%positive)
          (appended s1 1%positive
             (VDict [("sapcai_intent", VStr "book_flight")])) ∧
    match_sapcai (VStr "book_flight") (VFunc 1%positive) fresh_state
      = Ok (VFunc 1%positive)
          (appended fresh_state 1%positive
             (VDict [("sapcai_intent", VStr "book_flight")])).
Proof.
  split; [reflexivity|].
  destruct (recastai_attaches_what_sapcai_attaches (λ m, m)
              (VStr "book_flight") fresh_state 1%positive eq_refl)
    as (matcher & s1 & Hf & _ & Hm & Hs & _).
  exists matcher, s1. split; [exact Hf|]. split; [exact Hm|exact Hs].
Defined.

Lemma match_event_nests_type_witness :
  is_handler fresh_state 1%positive = true ∧
  ∃ s' d,
    match_event (VStr "message") (VFunc 1%positive) fresh_state
      = Ok (VFunc 1%positive) s' ∧
    matchers_of s' 1%positive = [d] ∧
    dict_get d "event_type" = Some (VDict [("type", VStr "message")]).
Proof.
  split; [reflexivity|].
  destruct (match_event_nests_type (VStr "message") fresh_state 1%positive
              eq_refl)
    as (s' & d & Hrun & Hl & _ & Hd & _).
  exists s', d. split; [exact Hrun|]. split; [exact Hl|exact Hd].
Defined.

Lemma crontab_and_webhook_descriptors_witness :
  is_handler fresh_state 1%positive = true ∧
  ∃ s' d,
    match_crontab (VStr "0 8 * * *") None (VFunc 1%positive) fresh_state
      = Ok (VFunc 1%positive) s' ∧
    matchers_of s' 1%positive = [d] ∧
    d = VDict [("crontab", VStr "0 8 * * *"); ("timezone", VNone)].
Proof.
  split; [reflexivity|].
  destruct (crontab_and_webhook_descriptors (VStr "0 8 * * *") fresh_state
              1%positive eq_refl)
    as [(s' & d & Hrun & Hl & Hd & _) _].
  exists s', d. split; [exact Hrun|]. split; [exact Hl|exact Hd].
Defined.

Lemma match_always_ignores_non_callable_witness :
  callable (VStr "hello") = false ∧
  match_always (Some (VStr "hello")) fresh_state
  = match_always None fresh_state.
Proof.
  split; [reflexivity|].
  exact (proj1 (match_always_ignores_non_callable (VStr "hello") fresh_state
                  eq_refl)).
Defined.

Lemma decoration_is_append_only_witness :
  is_handler decorated_state 1%positive = true ∧
  ∃ s',
    decorate (VFloat 0.5) (λ m, m) (CallWitai (VStr "greet"))
      (VFunc 1%positive) decorated_state = Ok (VFunc 1%positive) s' ∧
    matchers_of s' 1%positive
      = [VDict [("always", VBool true)];
         VDict [("webhook", VStr "deploy")];
         VDict [("witai_intent", VStr "greet")]] ∧
    matchers_of s' 1%positive !! 0 = Some (VDict [("always", VBool true)]) ∧
    matchers_of s' 1%positive !! 1
      = Some (VDict [("webhook", VStr "deploy")]).
Proof.
  split; [reflexivity|].
  destruct (decoration_is_append_only (VFloat 0.5) (λ m, m)
              (CallWitai (VStr "greet")) decorated_state 1%positive eq_refl)
    as (s' & Hrun & Hl & Hkeep & _).
  exists s'. split; [exact Hrun|]. split; [exact Hl|].
  split; [exact (Hkeep 0 _ eq_refl)|exact (Hkeep 1 _ eq_refl)].
Defined.

(** ** Where the code departs from the claims as worded *)

(** C6 as worded has the warning accompany each act of decorating a
    handler. One call [match_recastai("book_flight")] whose decorator then
    decorates both handlers of [fresh_state] logs a single warning, and has
    logged it before either handler is touched. *)
Lemma recastai_two_decorations_one_warning :
  ∃ matcher s1 s2 s3,
    match_recastai (λ m, m) (VStr "book_flight") fresh_state = Ok matcher s1 ∧
    matcher (VFunc 1%positive) s1 = Ok (VFunc 1%positive) s2 ∧
    matcher (VFunc 2%positive) s2 = Ok (VFunc 2%positive) s3 ∧
    matchers_of s1 1%positive = [] ∧ matchers_of s1 2%positive = [] ∧
    matchers_of s3 1%positive
      = [VDict [("sapcai_intent", VStr "book_flight")]] ∧
    matchers_of s3 2%positive
      = [VDict [("sapcai_intent", VStr "book_flight")]] ∧
    st_log s1 = [(WARNING, recastai_warning)] ∧
    st_log s2 = [(WARNING, recastai_warning)] ∧
    st_log s3 = [(WARNING, recastai_warning)].
Proof.
  eexists. eexists. eexists. eexists.
  split; [reflexivity|].
  split; [apply matcher_body; reflexivity|].
  split; [apply matcher_body; reflexivity|].
  repeat split; vm_compute; reflexivity.
Qed.

(** C7 as worded has the string itself stored under [event_type]. For
    [match_event("message")] the value under [event_type] is the dict
    [{"type": "message"}]. *)
Lemma match_event_value_is_a_dict :
  ∃ s' d,
    match_event (VStr "message") (VFunc 1%positive) fresh_state
      = Ok (VFunc 1%positive) s' ∧
    matchers_of s' 1%positive = [d] ∧
    dict_get d "event_type" = Some (VDict [("type", VStr "message")]) ∧
    dict_get d "event_type" ≠ Some (VStr "message").
Proof.
  eexists. eexists.
  split; [apply matcher_body; reflexivity|].
  split; [vm_compute; reflexivity|].
  split; [reflexivity|discriminate].
Qed.

(** ** The further properties at work *)

Lemma decorating_over_a_non_list_raises_witness :
  st_heap broken_state !! 1%positive = Some (<["matchers" := VNone]> ∅) ∧
  (<["matchers" := VNone]> ∅ : gmap string pyval) !! "matchers" = Some VNone ∧
  lacks_append VNone = true ∧
  ∃ s' attrs',
    decorate (VFloat 0.5) (λ m, m) (CallRecastai (VStr "greet"))
      (VFunc 1%positive) broken_state = Raise AttributeError s' ∧
    st_heap s' !! 1%positive = Some attrs' ∧
    attrs' !! "matchers" = Some VNone ∧
    st_log s' = [(WARNING, recastai_warning)].
Proof.
  split; [reflexivity|]. split; [reflexivity|]. split; [reflexivity|].
  destruct (decorating_over_a_non_list_raises (VFloat 0.5) (λ m, m)
              (CallRecastai (VStr "greet")) broken_state 1%positive
              (<["matchers" := VNone]> ∅) VNone eq_refl eq_refl eq_refl)
    as (s' & _ & attrs' & Hrun & Hl & Hm & Hlog & _).
  exists s', attrs'. split; [exact Hrun|]. split; [exact Hl|].
  split; [exact Hm|exact Hlog].
Defined.

Lemma only_recastai_logs_witness :
  (∀ intent, CallWebhook (VStr "deploy") ≠ CallRecastai intent) ∧
  st_log (outcome_state
    (decorate (VFloat 0.5) (λ m, m) (CallWebhook (VStr "deploy"))
       (VStr "not a function") fresh_state)) = [].
Proof.
  assert (Hc : ∀ intent, CallWebhook (VStr "deploy") ≠ CallRecastai intent).
  { intros intent E. discriminate E. }
  split; [exact Hc|].
  exact (only_recastai_logs (VFloat 0.5) (λ m, m)
           (CallWebhook (VStr "deploy")) (VStr "not a function") fresh_state
           Hc).
Defined.


Lemma stored_score_factor_truthy_or_default_witness :
  is_handler fresh_state 1%positive = true ∧
  ∃ s1 d1 p1 v,
    match_regex (VFloat 0.5) (VStr "hi") None None (Some (VInt 0))
      (VFunc 1%positive) fresh_state = Ok (VFunc 1%positive) s1 ∧
    matchers_of s1 1%positive = [d1] ∧
    dict_get d1 "regex" = Some p1 ∧
    dict_get p1 "score_factor" = Some v ∧
    truthy v = true.
Proof.
  split; [reflexivity|].
  destruct (stored_score_factor_truthy_or_default (VFloat 0.5) (VStr "hi")
              None None (Some (VInt 0)) fresh_state 1%positive eq_refl)
    as (s1 & _ & d1 & _ & p1 & _ & v & Hrun & Hm & Hd & Hp & _ & _ & _ & _
        & _ & Ht).
  exists s1, d1, p1, v. split; [exact Hrun|]. split; [exact Hm|].
  split; [exact Hd|]. split; [exact Hp|exact (Ht eq_refl)].
Defined.

Lemma descriptor_keys_tell_the_factory_witness :
  is_handler fresh_state 1%positive = true ∧
  ∃ s1 s2 d1 d2,
    decorate (VFloat 0.5) (λ m, m) (CallCrontab (VStr "0 8 * * *") None)
      (VFunc 1%positive) fresh_state = Ok (VFunc 1%positive) s1 ∧
    matchers_of s1 1%positive = [d1] ∧
    decorate (VFloat 0.5) (λ m, m) (CallWitai (VStr "greet"))
      (VFunc 1%positive) fresh_state = Ok (VFunc 1%positive) s2 ∧
    matchers_of s2 1%positive = [d2] ∧
    dict_keys d1 = ["crontab"; "timezone"] ∧
    dict_keys d1 ≠ dict_keys d2.
Proof.
  split; [reflexivity|].
  destruct (descriptor_keys_tell_the_factory (VFloat 0.5) (λ m, m)
              (CallCrontab (VStr "0 8 * * *") None) (CallWitai (VStr "greet"))
              fresh_state 1%positive eq_refl)
    as (s1 & s2 & d1 & d2 & H1 & Hm1 & H2 & Hm2 & Hk & Hc).
  exists s1, s2, d1, d2. split; [exact H1|]. split; [exact Hm1|].
  split; [exact H2|]. split; [exact Hm2|]. split; [exact Hc|].
  intros E. apply Hk in E. discriminate E.
Defined.

